(** * Fort Siloso voice guide: a shallow embedding of [app.py]

    The Streamlit script is executed from top to bottom on every user
    interaction.  What survives between two executions is
    [st.session_state]; everything else (widget values, the secret store,
    the answers of the remote services) is input of one execution.  The
    script is embedded as a computation in a small monad that threads the
    session state and the list of calls made to the framework and to the
    remote services, and that distinguishes a Python exception from the
    two ways the framework ends an execution ([st.stop], [st.rerun]). *)

From stdpp Require Import gmap strings list fin_maps.
From Stdlib Require Import Ascii String QArith.

Local Close Scope Q_scope.
Local Open Scope string_scope.
Local Open Scope list_scope.

(** ** Data *)

Abbreviation bytes := (list Byte.byte).

(** A chat message is the dict [{"role": ..., "content": ...}]. *)
Record Message := mkMessage { role : string; content : string }.

(** [str(e)] of a caught exception is all the script looks at. *)
Definition Exn := string.

Record Client := OpenAI { api_key : string }.

Record TranscriptionRequest := mkTranscriptionRequest {
  stt_model : string;
  stt_file_name : string;
  stt_file : bytes
}.

Record Transcript := mkTranscript { text : string }.

Record CompletionRequest := mkCompletionRequest {
  chat_model : string;
  chat_messages : list Message;
  temperature : Q
}.

Record Choice := mkChoice { message : Message }.
Record Completion := mkCompletion { choices : list Choice }.

Record SpeechRequest := mkSpeechRequest {
  tts_model : string;
  tts_voice : string;
  tts_input : string
}.

Record Speech := mkSpeech { read : bytes }.

(** Everything one execution of the script receives from outside.
    [openai_client k] is what [OpenAI(api_key=k)] does: it returns a
    client or raises. *)
Record Env := mkEnv {
  secrets : gmap string string;
  openai_client : string → Exn + Client;
  selectbox_value : string;
  audio_recorder_value : option bytes;
  button_value : string → bool;
  transcriptions_create : TranscriptionRequest → Exn + Transcript;
  completions_create : CompletionRequest → Exn + Completion;
  speech_create : SpeechRequest → Exn + Speech
}.

(** Calls the script makes, in the order it makes them. *)
Inductive Event :=
| set_page_config (page_title page_icon layout : string)
| st_error (body : string)
| st_title (body : string)
| st_markdown (body : string)
| st_expander (label : string) (expanded : bool)
| st_write (body : string)
| st_selectbox (label : string) (options : list string) (index : nat)
| audio_recorder (caption recording_color neutral_color icon_size : string)
| st_success (body : string)
| st_audio (data : bytes) (format : string)
| st_columns (n : nat)
| st_button (label : string) (primary disabled : bool)
| st_spinner (caption : string)
| st_subheader (body : string)
| call_transcription (req : TranscriptionRequest)
| call_completion (req : CompletionRequest)
| call_speech (req : SpeechRequest).

Record World := mkWorld {
  session_state : gmap string (list Message);
  log : list Event
}.

(** ** The script monad *)

Inductive Control := StopScript | RerunScript.

Inductive Outcome (A : Type) :=
| Ret (a : A)
| Raise (e : Exn)
| Halt (c : Control).
Arguments Ret {A} a.
Arguments Raise {A} e.
Arguments Halt {A} c.

Definition M (A : Type) : Type := World → Outcome A * World.

Definition ret {A} (a : A) : M A := λ w, (Ret a, w).

Definition bind {A B} (c : M A) (k : A → M B) : M B :=
  λ w, match c w with
       | (Ret a, w') => k a w'
       | (Raise e, w') => (Raise e, w')
       | (Halt h, w') => (Halt h, w')
       end.

Declare Scope script_scope.
Delimit Scope script_scope with script.
Notation "x <- c ;; k" := (bind c (λ x, k))
  (at level 20, c at level 99, k at level 200, only parsing) : script_scope.
Notation "' p <- c ;; k" := (bind c (λ x, match x with p => k end))
  (at level 20, p pattern, c at level 99, k at level 200, only parsing) : script_scope.
Notation "c ;; k" := (bind c (λ _, k))
  (at level 100, k at level 200, right associativity, only parsing) : script_scope.
Local Open Scope script_scope.

Definition raise {A} (e : Exn) : M A := λ w, (Raise e, w).

(** [try: c except Exception as e: h e].  The framework's stop and rerun
    signals are not [Exception]s and pass through. *)
Definition try_except {A} (c : M A) (h : Exn → M A) : M A :=
  λ w, match c w with
       | (Raise e, w') => h e w'
       | r => r
       end.

Definition st_stop {A} : M A := λ w, (Halt StopScript, w).
Definition st_rerun {A} : M A := λ w, (Halt RerunScript, w).

Definition emit (ev : Event) : M unit :=
  λ w, (Ret tt, mkWorld (session_state w) (log w ++ [ev])).

Definition lift_result {A} (r : Exn + A) : M A :=
  match r with inl e => raise e | inr a => ret a end.

Definition when (b : bool) (c : M unit) : M unit := if b then c else ret tt.

Fixpoint for_each {A} (l : list A) (body : A → M unit) : M unit :=
  match l with
  | [] => ret tt
  | x :: l' => body x ;; for_each l' body
  end.

(** *** Session state accessors *)

(** [st.session_state.messages]: attribute access fails when the key is
    absent. *)
Definition get_messages : M (list Message) :=
  λ w, match session_state w !! "messages" with
       | Some l => (Ret l, w)
       | None => (Raise "AttributeError: st.session_state has no attribute messages", w)
       end.

(** [st.session_state.messages = l] *)
Definition set_messages (l : list Message) : M unit :=
  λ w, (Ret tt, mkWorld (<["messages" := l]> (session_state w)) (log w)).

(** [st.session_state.messages.append(m)]: the list object stored in the
    session is extended in place. *)
Definition append_message (m : Message) : M unit :=
  l <- get_messages ;; set_messages (l ++ [m]).

(** Truth value of an [Optional[bytes]]. *)
Definition truthy (b : option bytes) : bool :=
  match b with
  | Some (_ :: _) => true
  | _ => false
  end.

(** ** The script, block by block *)

Definition LF : string := String "010"%char "".

(** The system prompt assigned at lines 31-50. *)
Definition seed_content : string :=
  "You are a knowledgeable, friendly voice guide for Fort Siloso " +:+
  "on Sentosa Island, Singapore." +:+ LF +:+ LF +:+
  "Guidelines:" +:+ LF +:+
  "- Answer only questions related to Fort Siloso, Sentosa history, " +:+
  "WWII coastal defence, the tunnels, guns, exhibits and visitor experience." +:+ LF +:+
  "- If the user asks about something unrelated, reply briefly " +:+
  "that you only answer questions about Fort Siloso." +:+ LF +:+
  "- Prefer short, spoken-style answers: 2–4 sentences, " +:+
  "clear and conversational." +:+ LF +:+
  "- If the user asks for highly time-sensitive info " +:+
  "(ticket prices, exact opening hours, special events), " +:+
  "give general guidance and ask them to check the official website " +:+
  "or on-site signage for exact details.".

Definition seed : Message := mkMessage "system" seed_content.

Definition missing_key_text : string :=
  "OPENAI_API_KEY is not set." +:+ LF +:+ LF +:+
  "On Streamlit Cloud, go to: **Settings → Secrets** and add:" +:+ LF +:+
  "OPENAI_API_KEY = your_real_key_here".

Definition voice_options : list string :=
  ["alloy"; "echo"; "fable"; "onyx"; "nova"; "shimmer"].

Section Script.

Variable env : Env.

(** [st.secrets[k]] *)
Definition secrets_getitem (k : string) : M string :=
  match secrets env !! k with
  | Some v => ret v
  | None => raise ("KeyError: " +:+ k)
  end.

(** Lines 10-25: page configuration and creation of the API client.  The
    secret lookup and the constructor sit in the same [try]: either of
    them raising leads to the same message and to [st.stop]. *)
Definition startup : M Client :=
  emit (set_page_config "Fort Siloso Voice Guide" "🎙️" "centered") ;;
  try_except
    (k <- secrets_getitem "OPENAI_API_KEY" ;; lift_result (openai_client env k))
    (λ _, emit (st_error missing_key_text) ;; st_stop).

(** Lines 30-50: [if "messages" not in st.session_state: ...]. *)
Definition init_session : M unit :=
  λ w, match session_state w !! "messages" with
       | None => set_messages [seed] w
       | Some _ => (Ret tt, w)
       end.

(** The widgets return what the user did. *)
Definition st_selectbox_widget (label : string) (options : list string)
    (index : nat) : M string :=
  emit (st_selectbox label options index) ;; ret (selectbox_value env).

Definition audio_recorder_widget (caption rc nc size : string) : M (option bytes) :=
  emit (audio_recorder caption rc nc size) ;; ret (audio_recorder_value env).

Definition st_button_widget (label : string) (primary disabled : bool) : M bool :=
  emit (st_button label primary disabled) ;; ret (button_value env label).

(** Lines 102-111. *)
Definition transcribe_question (audio_bytes : bytes) : M string :=
  let req := mkTranscriptionRequest "gpt-4o-mini-transcribe" "question.wav" audio_bytes in
  emit (call_transcription req) ;;
  transcript <- lift_result (transcriptions_create env req) ;;
  ret (text transcript).

(** [completion.choices[0]] *)
Definition first_choice (c : Completion) : M Choice :=
  match choices c with
  | ch :: _ => ret ch
  | [] => raise "list index out of range"
  end.

(** Lines 114-126.  The request carries the session's own list, read
    after the question has been appended to it. *)
Definition get_fort_siloso_answer (question_text : string) : M string :=
  append_message (mkMessage "user" question_text) ;;
  messages <- get_messages ;;
  let req := mkCompletionRequest "gpt-4.1-mini" messages (4 # 10)%Q in
  emit (call_completion req) ;;
  completion <- lift_result (completions_create env req) ;;
  ch <- first_choice completion ;;
  let answer := content (message ch) in
  append_message (mkMessage "assistant" answer) ;;
  ret answer.

(** Lines 129-137. *)
Definition synthesize_answer (answer_text voice_name : string) : M bytes :=
  let req := mkSpeechRequest "gpt-4o-mini-tts" voice_name answer_text in
  emit (call_speech req) ;;
  speech <- lift_result (speech_create env req) ;;
  ret (read speech).

(** Lines 95-97: the body of [if clear_chat:]. *)
Definition reset_conversation : M unit :=
  messages <- get_messages ;;
  set_messages (take 1 messages) ;;
  st_rerun.

(** Lines 144-172: the body of [if send_now and audio_bytes:]. *)
Definition pipeline (audio_bytes : bytes) (voice : string) : M unit :=
  emit (st_spinner "Transcribing your question...") ;;
  question_text <-
    try_except (transcribe_question audio_bytes)
      (λ e, emit (st_error ("Transcription failed: " +:+ e)) ;; st_stop) ;;
  emit (st_markdown "**You said:**") ;;
  emit (st_write question_text) ;;
  emit (st_spinner "Thinking about Fort Siloso...") ;;
  answer_text <-
    try_except (get_fort_siloso_answer question_text)
      (λ e, emit (st_error ("LLM failed: " +:+ e)) ;; st_stop) ;;
  emit (st_markdown "**Guide says (text):**") ;;
  emit (st_write answer_text) ;;
  emit (st_spinner "Generating spoken reply...") ;;
  answer_audio <-
    try_except (synthesize_answer answer_text voice)
      (λ e, emit (st_error ("TTS failed: " +:+ e)) ;; st_stop) ;;
  emit (st_markdown "### 3. Listen to the answer") ;;
  emit (st_audio answer_audio "audio/mp3").

(** Lines 177-182. *)
Definition history_event (msg : Message) : Event :=
  let who := if decide (role msg = "user") then "👤 You" else "🎧 Guide" in
  st_markdown ("**" +:+ who +:+ ":** " +:+ content msg).

Definition history_line (msg : Message) : M unit := emit (history_event msg).

Definition history_panel : M unit :=
  emit (st_markdown "---") ;;
  emit (st_subheader "Conversation history") ;;
  messages <- get_messages ;;
  for_each (drop 1 messages) history_line.

(** Lines 55-93: the page, from the title to the two buttons. *)
Definition render_controls : M (string * option bytes * bool * bool) :=
  emit (st_title "🎙️ Fort Siloso Voice Guide") ;;
  emit (st_markdown
    ("1. Press the microphone and **ask a question out loud** about Fort Siloso." +:+ LF +:+
     "2. Release to stop recording." +:+ LF +:+
     "3. The guide will **speak back** with an answer.")) ;;
  emit (st_expander "About this guide" false) ;;
  emit (st_write
    ("This demo uses OpenAI’s speech-to-text and text-to-speech models. " +:+
     "Voices are AI-generated.")) ;;
  voice <- st_selectbox_widget "Voice for the guide" voice_options 0 ;;
  emit (st_markdown "### 1. Record your question") ;;
  audio_bytes <- audio_recorder_widget "Click to start / stop recording"
                   "#ff4b4b" "#6c757d" "3x" ;;
  when (truthy audio_bytes)
    (emit (st_success "Recording captured! Scroll down to send it.") ;;
     emit (st_audio (default [] audio_bytes) "audio/wav")) ;;
  emit (st_markdown "### 2. Send to Fort Siloso guide") ;;
  emit (st_columns 2) ;;
  send_now <- st_button_widget "Ask in voice" true (negb (truthy audio_bytes)) ;;
  clear_chat <- st_button_widget "Reset conversation" false false ;;
  ret (voice, audio_bytes, send_now, clear_chat).

(** Lines 55-182: what is executed once the client exists and the session
    is initialised. *)
Definition page_body : M unit :=
  '(voice, audio_bytes, send_now, clear_chat) <- render_controls ;;
  when clear_chat reset_conversation ;;
  when (send_now && truthy audio_bytes)
    (pipeline (default [] audio_bytes) voice) ;;
  history_panel.

(** The whole file, top to bottom. *)
Definition script : M unit :=
  client <- startup ;;
  init_session ;;
  page_body.

(** One execution of the script on the session state left by the
    previous one. *)
Definition run (ss : gmap string (list Message)) : Outcome unit * World :=
  script (mkWorld ss []).

End Script.

(** A session: the script is executed once per interaction, each time
    with what that interaction supplies. *)
Fixpoint run_session (envs : list Env) (ss : gmap string (list Message))
    : gmap string (list Message) :=
  match envs with
  | [] => ss
  | e :: envs' => run_session envs' (session_state (run e ss).2)
  end.

(** ** Predicates used in the statements *)

(** [preserves I c]: whatever way [c] ends (value, exception, stop or
    rerun), a world satisfying [I] is left satisfying [I]. *)
Definition preserves {A} (I : World → Prop) (c : M A) : Prop :=
  ∀ w, I w → I (c w).2.

(** Invariants that speak of the session state only are untouched by
    calls to the page and to the remote services. *)
Definition on_session (P : gmap string (list Message) → Prop) : World → Prop :=
  λ w, P (session_state w).

(** The [try] of lines 17-19 succeeds: the secret is there and the
    constructor returns a client. *)
Definition client_created (env : Env) : Prop :=
  ∃ k c, secrets env !! "OPENAI_API_KEY" = Some k ∧ openai_client env k = inr c.

(** The two roles a turn appends. *)
Definition chat_role (m : Message) : Prop :=
  role m = "user" ∨ role m = "assistant".

(** The list exists, starts with the seed, and nothing after the seed is
    a system message. *)
Definition seed_first (ss : gmap string (list Message)) : Prop :=
  ∃ rest, ss !! "messages" = Some (seed :: rest) ∧ Forall chat_role rest.

(** Calls that belong to the transcribe, answer, synthesise pipeline and
    to nothing else in the script. *)
Definition is_pipeline_event (ev : Event) : bool :=
  match ev with
  | st_spinner _ | call_transcription _ | call_completion _ | call_speech _ => true
  | _ => false
  end.

(** ** Sample inputs

    A visitor who has recorded a clip and presses one button, with the
    three remote services answering as given. *)

Definition sample_secrets : gmap string string :=
  {["OPENAI_API_KEY" := "sk-sample"]}.

Definition sample_audio : bytes := [Byte.x52; Byte.x49; Byte.x46; Byte.x46].

Definition pressed (label : string) : string → bool :=
  λ l, String.eqb l label.

Definition sample_env (button : string) (stt : Exn + Transcript)
    (chat : Exn + Completion) (tts : Exn + Speech) : Env :=
  mkEnv sample_secrets (λ k, inr (OpenAI k)) "alloy" (Some sample_audio)
    (pressed button)
    (λ _, stt) (λ _, chat) (λ _, tts).

Definition sample_question : string := "What is the Surrender Chamber?".
Definition sample_answer : string := "It depicts the 1942 British surrender...".

Definition sample_completion : Completion :=
  mkCompletion [mkChoice (mkMessage "assistant" sample_answer)].

Definition sample_speech : Speech := mkSpeech [Byte.x49; Byte.x44; Byte.x33].

(** The session right after its first execution, and after one turn. *)
Definition seeded : gmap string (list Message) := {["messages" := [seed]]}.

Definition after_one_turn : gmap string (list Message) :=
  {["messages" := [seed; mkMessage "user" sample_question;
                   mkMessage "assistant" sample_answer]]}.

Definition turn_env : Env :=
  sample_env "Ask in voice" (inr (mkTranscript sample_question))
    (inr sample_completion) (inr sample_speech).

Definition stt_down_env : Env :=
  sample_env "Ask in voice" (inl "connection error")
    (inr sample_completion) (inr sample_speech).

Definition chat_down_env : Env :=
  sample_env "Ask in voice" (inr (mkTranscript sample_question))
    (inl "rate limit exceeded") (inr sample_speech).

Definition tts_down_env : Env :=
  sample_env "Ask in voice" (inr (mkTranscript sample_question))
    (inr sample_completion) (inl "service unavailable").

Definition reset_env : Env :=
  sample_env "Reset conversation" (inr (mkTranscript sample_question))
    (inr sample_completion) (inr sample_speech).

(** The send button reported as pressed although nothing was recorded. *)
Definition no_clip_env : Env :=
  mkEnv sample_secrets (λ k, inr (OpenAI k)) "alloy" None
    (pressed "Ask in voice")
    (λ _, inr (mkTranscript sample_question))
    (λ _, inr sample_completion) (λ _, inr sample_speech).

Definition no_key_env : Env :=
  mkEnv ∅ (λ k, inr (OpenAI k)) "alloy" (Some sample_audio)
    (pressed "Ask in voice")
    (λ _, inr (mkTranscript sample_question))
    (λ _, inr sample_completion) (λ _, inr sample_speech).

(** ** Reading the call log

    Projections of the log used to say what an execution did and what it
    put on the page. *)

Definition is_remote_call (ev : Event) : bool :=
  match ev with
  | call_transcription _ | call_completion _ | call_speech _ => true
  | _ => false
  end.

(** The calls to the remote services, in the order they were made. *)
Definition remote_calls (lg : list Event) : list Event :=
  List.filter is_remote_call lg.

(** At most one call per service, and each service only after the one
    before it in the pipeline. *)
Definition stage_order (calls : list Event) : bool :=
  match calls with
  | [] => true
  | [call_transcription _] => true
  | [call_transcription _; call_completion _] => true
  | [call_transcription _; call_completion _; call_speech _] => true
  | _ => false
  end.

Definition is_button (ev : Event) : bool :=
  match ev with
  | st_button _ _ _ => true
  | _ => false
  end.

Definition buttons (lg : list Event) : list Event := List.filter is_button lg.

Definition is_history_header (ev : Event) : bool :=
  match ev with
  | st_subheader _ => true
  | _ => false
  end.

(** Whether the conversation history panel was put on the page. *)
Definition history_shown (lg : list Event) : bool :=
  existsb is_history_header lg.

Definition is_ret {A} (o : Outcome A) : bool :=
  match o with
  | Ret _ => true
  | _ => false
  end.

Definition is_raise {A} (o : Outcome A) : bool :=
  match o with
  | Raise _ => true
  | _ => false
  end.

(** The list the page body works on: the stored one, or the seed list
    that [init_session] creates when there is none. *)
Definition initial_history (ss : gmap string (list Message)) : list Message :=
  match ss !! "messages" with
  | Some l => l
  | None => [seed]
  end.

(** Every assistant message comes right after a user message; in
    particular the list does not start with one. *)
Definition answers_follow_questions (l : list Message) : Prop :=
  ∀ i m, l !! i = Some m → role m = "assistant" →
         ∃ j u, i = S j ∧ l !! j = Some u ∧ role u = "user".

(** What one run of the page body on a session holding the list [l]
    can do to the session and put in the log. *)
Definition page_summary (env : Env) (ss0 : gmap string (list Message))
    (l : list Message) (r : Outcome unit * World) : Prop :=
  (∃ l', session_state r.2 = <["messages" := l']> ss0
         ∧ ((button_value env "Reset conversation" = true ∧ l' = take 1 l)
            ∨ (button_value env "Reset conversation" = false
               ∧ (l' = l
                  ∨ (∃ q, l' = l ++ [mkMessage "user" q])
                  ∨ (∃ q a, l' = l ++ [mkMessage "user" q;
                                       mkMessage "assistant" a])))))
  ∧ stage_order (remote_calls (log r.2)) = true
  ∧ history_shown (log r.2) = is_ret r.1
  ∧ is_raise r.1 = false
  ∧ buttons (log r.2) =
      [st_button "Ask in voice" true (negb (truthy (audio_recorder_value env)));
       st_button "Reset conversation" false false].

(** More sample inputs: a completion without choices, both buttons
    reported at once, no button pressed, and a session with a second key. *)
Definition no_choice_env : Env :=
  sample_env "Ask in voice" (inr (mkTranscript sample_question))
    (inr (mkCompletion [])) (inr sample_speech).

Definition both_buttons_env : Env :=
  mkEnv sample_secrets (λ k, inr (OpenAI k)) "alloy" (Some sample_audio)
    (λ _, true)
    (λ _, inr (mkTranscript sample_question))
    (λ _, inr sample_completion) (λ _, inr sample_speech).

Definition idle_env : Env :=
  sample_env "" (inr (mkTranscript sample_question))
    (inr sample_completion) (inr sample_speech).

(** The secret is set, to a value the constructor refuses. *)
Definition rejected_key_env : Env :=
  mkEnv {["OPENAI_API_KEY" := ""]} (λ _, inl "invalid api key") "alloy"
    (Some sample_audio) (pressed "Ask in voice")
    (λ _, inr (mkTranscript sample_question))
    (λ _, inr sample_completion) (λ _, inr sample_speech).

Definition with_notes : gmap string (list Message) :=
  <["notes" := [mkMessage "user" "remember the guns"]]> seeded.

(** ** Reasoning about script computations *)

Create HintDb script discriminated.

Section Preservation.

Context (I : World → Prop).

Lemma preserves_ret {A} (a : A) : preserves I (ret a).
Proof. by intros w Hw. Qed.

Lemma preserves_raise {A} (e : Exn) : preserves I (@raise A e).
Proof. by intros w Hw. Qed.

Lemma preserves_st_stop {A} : preserves I (@st_stop A).
Proof. by intros w Hw. Qed.

Lemma preserves_st_rerun {A} : preserves I (@st_rerun A).
Proof. by intros w Hw. Qed.

Lemma preserves_bind {A B} (c : M A) (k : A → M B) :
  preserves I c → (∀ a, preserves I (k a)) → preserves I (bind c k).
Proof.
  intros Hc Hk w Hw. unfold bind.
  specialize (Hc w Hw). destruct (c w) as [[a|e|h] w']; simpl in *; auto.
  by apply Hk.
Qed.

Lemma preserves_try_except {A} (c : M A) (h : Exn → M A) :
  preserves I c → (∀ e, preserves I (h e)) → preserves I (try_except c h).
Proof.
  intros Hc Hh w Hw. unfold try_except.
  specialize (Hc w Hw). destruct (c w) as [[a|e|ctl] w']; simpl in *; auto.
  by apply Hh.
Qed.

Lemma preserves_lift_result {A} (r : Exn + A) : preserves I (lift_result r).
Proof. destruct r; [apply preserves_raise | apply preserves_ret]. Qed.

Lemma preserves_when (b : bool) (c : M unit) :
  preserves I c → preserves I (when b c).
Proof. destruct b; [done | intros _; apply preserves_ret]. Qed.

Lemma preserves_for_each {A} (l : list A) (body : A → M unit) :
  (∀ x, preserves I (body x)) → preserves I (for_each l body).
Proof.
  intros Hbody. induction l as [|x l IH]; simpl.
  - apply preserves_ret.
  - apply preserves_bind; auto.
Qed.

Lemma preserves_get_messages : preserves I get_messages.
Proof.
  intros w Hw. unfold get_messages.
  by destruct (session_state w !! "messages").
Qed.

End Preservation.

#[global] Hint Resolve preserves_ret preserves_raise preserves_st_stop
  preserves_st_rerun preserves_lift_result preserves_get_messages : script.
#[global] Hint Resolve preserves_bind preserves_try_except preserves_when
  preserves_for_each | 2 : script.

Lemma preserves_emit_on_session P ev : preserves (on_session P) (emit ev).
Proof. by intros w Hw. Qed.

#[global] Hint Resolve preserves_emit_on_session : script.

(** Blocks that never touch the session state. *)
Lemma transcribe_question_on_session env P b :
  preserves (on_session P) (transcribe_question env b).
Proof. unfold transcribe_question. eauto 10 with script. Qed.

Lemma synthesize_answer_on_session env P a v :
  preserves (on_session P) (synthesize_answer env a v).
Proof. unfold synthesize_answer. eauto 10 with script. Qed.

Lemma history_panel_on_session P : preserves (on_session P) history_panel.
Proof.
  unfold history_panel, history_line. eauto 10 with script.
Qed.

(** ** The seed invariant *)

Lemma seed_is_not_chat : ¬ chat_role seed.
Proof. by intros [?|?]. Qed.

Lemma append_message_seed_first m :
  chat_role m → preserves (on_session seed_first) (append_message m).
Proof.
  intros Hm w (rest & Hl & Hrest).
  unfold append_message, bind, get_messages, set_messages, on_session.
  rewrite Hl. simpl. exists (rest ++ [m]). split.
  - by rewrite lookup_insert_eq.
  - apply Forall_app. auto.
Qed.

Lemma get_fort_siloso_answer_seed_first env q :
  preserves (on_session seed_first) (get_fort_siloso_answer env q).
Proof.
  unfold get_fort_siloso_answer, first_choice.
  apply preserves_bind; [apply append_message_seed_first; by left|].
  intros _. apply preserves_bind; [auto with script|]. intros l.
  apply preserves_bind; [auto with script|]. intros _.
  apply preserves_bind; [auto with script|]. intros c.
  apply preserves_bind; [destruct (choices c); auto with script|]. intros ch.
  apply preserves_bind; [apply append_message_seed_first; by right|].
  auto with script.
Qed.

Lemma reset_conversation_seed_first :
  preserves (on_session seed_first) reset_conversation.
Proof.
  intros w (rest & Hl & Hrest).
  unfold reset_conversation, bind, get_messages, set_messages, st_rerun, on_session.
  rewrite Hl. simpl. exists []. split; [by rewrite lookup_insert_eq | constructor].
Qed.

Lemma pipeline_seed_first env data voice :
  preserves (on_session seed_first) (pipeline env data voice).
Proof.
  unfold pipeline.
  repeat (apply preserves_bind; [| intros ?]);
    try (apply preserves_try_except; [| intros ?]);
    auto using transcribe_question_on_session, synthesize_answer_on_session,
      get_fort_siloso_answer_seed_first with script.
Qed.

Lemma init_session_seed_first : preserves (on_session seed_first) init_session.
Proof.
  intros w (rest & Hl & Hrest). unfold init_session. rewrite Hl.
  by exists rest.
Qed.

Lemma render_controls_on_session env P :
  preserves (on_session P) (render_controls env).
Proof.
  unfold render_controls, st_selectbox_widget, audio_recorder_widget,
    st_button_widget.
  repeat (apply preserves_bind; [| intros ?]); auto 10 with script.
Qed.

Lemma startup_on_session env P : preserves (on_session P) (startup env).
Proof.
  unfold startup, secrets_getitem.
  apply preserves_bind; [auto with script|]. intros _.
  apply preserves_try_except; [| auto 10 with script].
  destruct (secrets env !! "OPENAI_API_KEY"); auto 10 with script.
Qed.

Lemma page_body_seed_first env : preserves (on_session seed_first) (page_body env).
Proof.
  unfold page_body.
  apply preserves_bind; [apply render_controls_on_session|].
  intros [[[voice audio_bytes] send_now] clear_chat].
  apply preserves_bind;
    [apply preserves_when, reset_conversation_seed_first|]. intros _.
  apply preserves_bind;
    [apply preserves_when, pipeline_seed_first|]. intros _.
  apply history_panel_on_session.
Qed.

Lemma script_seed_first env : preserves (on_session seed_first) (script env).
Proof.
  unfold script.
  apply preserves_bind; [apply startup_on_session|]. intros _.
  apply preserves_bind; [apply init_session_seed_first|]. intros _.
  apply page_body_seed_first.
Qed.

(** The ways [startup] ends. *)
Lemma startup_no_key env w :
  secrets env !! "OPENAI_API_KEY" = None →
  startup env w =
    (Halt StopScript,
     mkWorld (session_state w)
       ((log w ++ [set_page_config "Fort Siloso Voice Guide" "🎙️" "centered"])
          ++ [st_error missing_key_text])).
Proof.
  intros Hk. unfold startup, secrets_getitem, bind, try_except, emit, st_stop.
  simpl. rewrite Hk. reflexivity.
Qed.

Lemma startup_no_client env w k err :
  secrets env !! "OPENAI_API_KEY" = Some k →
  openai_client env k = inl err →
  startup env w =
    (Halt StopScript,
     mkWorld (session_state w)
       ((log w ++ [set_page_config "Fort Siloso Voice Guide" "🎙️" "centered"])
          ++ [st_error missing_key_text])).
Proof.
  intros Hk Hc.
  unfold startup, secrets_getitem, bind, try_except, emit, st_stop, lift_result.
  simpl. rewrite Hk. unfold ret. rewrite Hc. reflexivity.
Qed.

Lemma startup_key env w k c :
  secrets env !! "OPENAI_API_KEY" = Some k →
  openai_client env k = inr c →
  startup env w =
    (Ret c,
     mkWorld (session_state w)
       (log w ++ [set_page_config "Fort Siloso Voice Guide" "🎙️" "centered"])).
Proof.
  intros Hk Hc.
  unfold startup, secrets_getitem, bind, try_except, emit, lift_result.
  simpl. rewrite Hk. unfold ret. rewrite Hc. reflexivity.
Qed.

Lemma startup_stops env w :
  ¬ client_created env →
  startup env w =
    (Halt StopScript,
     mkWorld (session_state w)
       ((log w ++ [set_page_config "Fort Siloso Voice Guide" "🎙️" "centered"])
          ++ [st_error missing_key_text])).
Proof.
  intros Hno.
  destruct (secrets env !! "OPENAI_API_KEY") as [k|] eqn:Hk;
    [|by apply startup_no_key].
  destruct (openai_client env k) as [err|c] eqn:Hc;
    [by apply (startup_no_client _ _ k err)|].
  destruct Hno. by exists k, c.
Qed.

Lemma run_seed_first env ss :
  seed_first ss → seed_first (session_state (run env ss).2).
Proof. intros H. by apply (script_seed_first env (mkWorld ss [])). Qed.

(** Without a client the execution is the page configuration and the
    error, and nothing else. *)
Lemma run_stops env ss :
  ¬ client_created env →
  run env ss =
    (Halt StopScript,
     mkWorld ss
       [set_page_config "Fort Siloso Voice Guide" "🎙️" "centered";
        st_error missing_key_text]).
Proof.
  intros Hno. unfold run, script, bind. by rewrite (startup_stops _ _ Hno).
Qed.

Lemma no_client_created env k err :
  secrets env !! "OPENAI_API_KEY" = Some k →
  openai_client env k = inl err →
  ¬ client_created env.
Proof. intros Hk Hc (k' & c' & Hk' & Hc'). congruence. Qed.

(** The first execution that gets its client creates the list. *)
Lemma run_fresh env ss :
  ss !! "messages" = None →
  (¬ client_created env ∧ session_state (run env ss).2 = ss)
  ∨ seed_first (session_state (run env ss).2).
Proof.
  intros Hnone. unfold run, script.
  destruct (secrets env !! "OPENAI_API_KEY") as [k|] eqn:Hk.
  - destruct (openai_client env k) as [err|c] eqn:Hc.
    + left. split.
      * intros (k' & c' & Hk' & Hc'). congruence.
      * unfold bind at 1. by rewrite (startup_no_client _ _ k err Hk Hc).
    + right. unfold bind at 1. rewrite (startup_key _ _ k c Hk Hc).
      unfold bind at 1. unfold init_session at 1. simpl. rewrite Hnone.
      unfold set_messages at 1. simpl.
      apply (page_body_seed_first env). unfold on_session. simpl.
      exists []. split; [by rewrite lookup_insert_eq | constructor].
  - left. split.
    + intros (k' & c' & Hk' & Hc'). congruence.
    + unfold bind at 1. by rewrite (startup_no_key _ _ Hk).
Qed.

Lemma run_session_seed_first envs ss :
  seed_first ss → seed_first (run_session envs ss).
Proof.
  revert ss. induction envs as [|e envs IH]; intros ss Hss; simpl; [done|].
  by apply IH, run_seed_first.
Qed.

Lemma run_session_fresh envs ss :
  ss !! "messages" = None →
  match run_session envs ss !! "messages" with
  | None => Forall (λ e, ¬ client_created e) envs
  | Some l => ∃ rest, l = seed :: rest ∧ Forall chat_role rest ∧ seed ∉ rest
  end.
Proof.
  revert ss. induction envs as [|e envs IH]; intros ss Hnone; simpl.
  - rewrite Hnone. constructor.
  - destruct (run_fresh e ss Hnone) as [[Hk Hsame]|Hseed].
    + rewrite Hsame. specialize (IH ss Hnone).
      destruct (run_session envs ss !! "messages"); [done|].
      by constructor.
    + destruct (run_session_seed_first envs _ Hseed) as (rest & Hl & Hrest).
      rewrite Hl. exists rest. repeat split; [done|].
      intros Hin. rewrite Forall_forall in Hrest.
      by apply seed_is_not_chat, Hrest.
Qed.

(** C1. Seed invariant: from a fresh session, after any number of
    executions of the script (turns that succeed, turns that fail at any
    stage, resets, idle reruns, in any order and with any answers from the
    remote services), the message list, once it exists, has the seed system
    message as its first element, only user and assistant messages after
    it, and so no second copy of the seed; it does not exist only as long
    as every execution so far stopped before the session was initialised,
    the secret being absent or the client constructor raising. *)
Theorem seed_invariant (envs : list Env) :
  match run_session envs ∅ !! "messages" with
  | None => Forall (λ e, ¬ client_created e) envs
  | Some l => ∃ rest, l = seed :: rest ∧ Forall chat_role rest ∧ seed ∉ rest
  end.
Proof. apply run_session_fresh, lookup_empty. Qed.

(** ** Executing the script symbolically *)

Lemma for_each_emit {A} (f : A → Event) (l : list A) w :
  for_each l (λ x, emit (f x)) w =
    (Ret tt, mkWorld (session_state w) (log w ++ map f l)).
Proof.
  revert w. induction l as [|x l IH]; intros w; simpl.
  - rewrite app_nil_r. by destruct w.
  - unfold bind, emit at 1. rewrite IH. simpl. by rewrite <- app_assoc.
Qed.

Lemma history_panel_spec w l :
  session_state w !! "messages" = Some l →
  history_panel w =
    (Ret tt,
     mkWorld (session_state w)
       (((log w ++ [st_markdown "---"]) ++ [st_subheader "Conversation history"])
          ++ map history_event (drop 1 l))).
Proof.
  intros Hl. unfold history_panel, history_line, bind, emit at 1 2, get_messages.
  simpl. rewrite Hl. by rewrite for_each_emit.
Qed.

(** Unfold the blocks of the script and the monad, then use the facts
    at hand about what the execution received. *)
Ltac exec_step :=
  cbv beta iota zeta delta
    [run script page_body startup secrets_getitem init_session render_controls
     st_selectbox_widget audio_recorder_widget st_button_widget
     transcribe_question first_choice get_fort_siloso_answer synthesize_answer
     reset_conversation pipeline append_message get_messages set_messages
     bind ret raise try_except st_stop st_rerun emit lift_result when];
  cbn [session_state log fst snd andb negb from_option id truthy app
       text choices message content read].

Ltac exec :=
  repeat (exec_step;
          try match goal with
              | H : ?lhs = _ |- context [?lhs] => rewrite H
              end;
          rewrite ?lookup_insert_eq).

Lemma transcribe_question_ignores_session env data w w' :
  (transcribe_question env data w).1 = (transcribe_question env data w').1.
Proof.
  unfold transcribe_question, bind, emit, lift_result.
  cbn [session_state log].
  by destruct (transcriptions_create env _).
Qed.

Section Turn.

(** A turn: the secret is present, the session is initialised, a clip
    [b :: bs] has been recorded, and the visitor presses "Ask in voice".
    After the first result the client is also assumed created, without
    which no stage of the pipeline is reached. *)
Context (env : Env) (ss : gmap string (list Message)) (l : list Message).
Context (k : string) (b : Byte.byte) (bs : bytes).
Hypothesis Hkey : secrets env !! "OPENAI_API_KEY" = Some k.
Hypothesis Hmessages : ss !! "messages" = Some l.
Hypothesis Haudio : audio_recorder_value env = Some (b :: bs).
Hypothesis Hsend : button_value env "Ask in voice" = true.
Hypothesis Hreset : button_value env "Reset conversation" = false.

(** C4. Transcription failure: when the transcription call of a turn
    raises, the execution stops and the session state is exactly what it
    was before the turn; moreover [transcribe_question] never writes the
    session state, and its result does not depend on it. *)
Theorem transcription_failure_leaves_state (err : Exn) :
  transcriptions_create env
    (mkTranscriptionRequest "gpt-4o-mini-transcribe" "question.wav" (b :: bs))
    = inl err →
  (run env ss).1 = Halt StopScript
  ∧ session_state (run env ss).2 = ss
  ∧ (∀ data w, session_state (transcribe_question env data w).2 = session_state w)
  ∧ (∀ data w w', (transcribe_question env data w).1
                   = (transcribe_question env data w').1).
Proof.
  intros Hstt. repeat split.
  - destruct (openai_client env k) as [cerr|c] eqn:Hc; by exec.
  - destruct (openai_client env k) as [cerr|c] eqn:Hc; by exec.
  - intros data w.
    by apply (transcribe_question_on_session env (λ s, s = session_state w)).
  - intros data w w'. apply transcribe_question_ignores_session.
Qed.

(** From here on the client has been created. *)
Context (client : Client).
Hypothesis Hclient : openai_client env k = inr client.

Section Transcribed.

Context (q : string).
Hypothesis Hstt :
  transcriptions_create env
    (mkTranscriptionRequest "gpt-4o-mini-transcribe" "question.wav" (b :: bs))
  = inr (mkTranscript q).

(** C3. Answer failure: when transcription returns [q] and the completion
    call raises, the execution stops and the message list is the previous
    list followed by the single user message carrying [q]; no assistant
    message is appended and nothing else in the session changes. *)
Theorem generation_failure_keeps_question (err : Exn) :
  completions_create env
    (mkCompletionRequest "gpt-4.1-mini" (l ++ [mkMessage "user" q]) (4 # 10)%Q)
    = inl err →
  (run env ss).1 = Halt StopScript
  ∧ session_state (run env ss).2 = <["messages" := l ++ [mkMessage "user" q]]> ss.
Proof. intros Hchat. split; by exec. Qed.

Section Answered.

Context (c : Completion) (ch : Choice) (chs : list Choice).
Hypothesis Hchat :
  completions_create env
    (mkCompletionRequest "gpt-4.1-mini" (l ++ [mkMessage "user" q]) (4 # 10)%Q)
  = inr c.
Hypothesis Hchoices : choices c = ch :: chs.

(** C2. Successful turn: when transcription returns [q], the completion
    returns a first choice with content [a] and synthesis succeeds, the
    execution runs to its end and the message list is the previous list
    followed by exactly two messages, user [q] then assistant [a]. *)
Theorem successful_turn_appends_two (sp : Speech) :
  speech_create env
    (mkSpeechRequest "gpt-4o-mini-tts" (selectbox_value env) (content (message ch)))
    = inr sp →
  (run env ss).1 = Ret tt
  ∧ session_state (run env ss).2 =
      <["messages" := l ++ [mkMessage "user" q;
                            mkMessage "assistant" (content (message ch))]]> ss.
Proof.
  intros Htts. exec.
  erewrite history_panel_spec by (cbn [session_state]; apply lookup_insert_eq).
  cbn [fst snd session_state]. split; [done|].
  by rewrite insert_insert_eq, <- app_assoc.
Qed.

(** C7. Synthesis failure: when the speech call raises, the execution
    stops after the generation stage has done its work: the message list
    holds the user and the assistant message of this turn, the answer
    text has been written to the page, followed by the error naming the
    synthesis stage; [synthesize_answer] itself never writes the session
    state. *)
Theorem synthesis_failure_keeps_answer (err : Exn) :
  speech_create env
    (mkSpeechRequest "gpt-4o-mini-tts" (selectbox_value env) (content (message ch)))
    = inl err →
  (run env ss).1 = Halt StopScript
  ∧ session_state (run env ss).2 =
      <["messages" := l ++ [mkMessage "user" q;
                            mkMessage "assistant" (content (message ch))]]> ss
  ∧ In (st_write (content (message ch))) (log (run env ss).2)
  ∧ In (st_error ("TTS failed: " +:+ err)) (log (run env ss).2)
  ∧ (∀ a v w, session_state (synthesize_answer env a v w).2 = session_state w).
Proof.
  intros Htts. repeat split.
  - by exec.
  - exec. by rewrite insert_insert_eq, <- app_assoc.
  - exec. apply list_elem_of_In. set_solver.
  - exec. apply list_elem_of_In. set_solver.
  - intros a v w.
    by apply (synthesize_answer_on_session env (λ s, s = session_state w)).
Qed.

End Answered.
End Transcribed.
End Turn.

Lemma transcription_failure_leaves_state_witness :
  (run stt_down_env after_one_turn).1 = Halt StopScript
  ∧ session_state (run stt_down_env after_one_turn).2 = after_one_turn.
Proof.
  refine (let H := transcription_failure_leaves_state stt_down_env after_one_turn
                     [seed; mkMessage "user" sample_question;
                      mkMessage "assistant" sample_answer]
                     "sk-sample" Byte.x52 [Byte.x49; Byte.x46; Byte.x46]
                     _ _ _ _ _ "connection error" _ in
          conj (proj1 H) (proj1 (proj2 H)));
    reflexivity.
Defined.

Lemma generation_failure_keeps_question_witness :
  (run chat_down_env seeded).1 = Halt StopScript
  ∧ session_state (run chat_down_env seeded).2
    = <["messages" := [seed; mkMessage "user" sample_question]]> seeded.
Proof.
  refine (generation_failure_keeps_question chat_down_env seeded [seed]
            "sk-sample" Byte.x52 [Byte.x49; Byte.x46; Byte.x46]
            _ _ _ _ _ (OpenAI "sk-sample") _
            sample_question _ "rate limit exceeded" _);
    reflexivity.
Defined.

Lemma successful_turn_appends_two_witness :
  (run turn_env seeded).1 = Ret tt
  ∧ session_state (run turn_env seeded).2
    = <["messages" := [seed; mkMessage "user" sample_question;
                       mkMessage "assistant" sample_answer]]> seeded.
Proof.
  refine (successful_turn_appends_two turn_env seeded [seed]
            "sk-sample" Byte.x52 [Byte.x49; Byte.x46; Byte.x46]
            _ _ _ _ _ (OpenAI "sk-sample") _
            sample_question _ sample_completion
            (mkChoice (mkMessage "assistant" sample_answer)) [] _ _
            sample_speech _);
    reflexivity.
Defined.

Lemma synthesis_failure_keeps_answer_witness :
  session_state (run tts_down_env seeded).2
    = <["messages" := [seed; mkMessage "user" sample_question;
                       mkMessage "assistant" sample_answer]]> seeded
  ∧ In (st_write sample_answer) (log (run tts_down_env seeded).2).
Proof.
  refine (let H := synthesis_failure_keeps_answer tts_down_env seeded [seed]
                     "sk-sample" Byte.x52 [Byte.x49; Byte.x46; Byte.x46]
                     _ _ _ _ _ (OpenAI "sk-sample") _
                     sample_question _ sample_completion
                     (mkChoice (mkMessage "assistant" sample_answer)) [] _ _
                     "service unavailable" _ in
          conj (proj1 (proj2 H)) (proj1 (proj2 (proj2 H))));
    reflexivity.
Defined.

(** C6. Answer generation sees the question it has just recorded: on a
    session holding the list [l], [get_fort_siloso_answer q] makes exactly
    one completion call, whose message sequence is the whole list followed
    by the user message for [q] and whose temperature is 0.4; at the time
    the call returns or raises, the session already holds that user
    message, and only a returned first choice adds the assistant message. *)
Theorem answer_call_sees_appended_question env q w l :
  session_state w !! "messages" = Some l →
  let asked := l ++ [mkMessage "user" q] in
  let req := mkCompletionRequest "gpt-4.1-mini" asked (4 # 10)%Q in
  let at_call :=
    mkWorld (<["messages" := asked]> (session_state w))
            (log w ++ [call_completion req]) in
  get_fort_siloso_answer env q w =
    match completions_create env req with
    | inl err => (Raise err, at_call)
    | inr c =>
        match choices c with
        | [] => (Raise "list index out of range", at_call)
        | ch :: _ =>
            (Ret (content (message ch)),
             mkWorld
               (<["messages" := asked ++ [mkMessage "assistant" (content (message ch))]]>
                  (session_state w))
               (log at_call))
        end
    end.
Proof.
  intros Hl. cbv zeta. exec.
  destruct (completions_create env _) as [err|c]; [done|].
  exec_step. destruct (choices c) as [|ch chs]; [done|].
  exec. by rewrite insert_insert_eq.
Qed.

Lemma answer_call_sees_appended_question_witness :
  get_fort_siloso_answer turn_env sample_question (mkWorld seeded []) =
    (Ret sample_answer,
     mkWorld
       (<["messages" := [seed; mkMessage "user" sample_question;
                         mkMessage "assistant" sample_answer]]> seeded)
       [call_completion
          (mkCompletionRequest "gpt-4.1-mini"
             [seed; mkMessage "user" sample_question] (4 # 10)%Q)]).
Proof.
  refine (answer_call_sees_appended_question turn_env sample_question
            (mkWorld seeded []) [seed] _);
    reflexivity.
Defined.

(** C8. Missing credential: when the secret store has no
    [OPENAI_API_KEY], the execution consists of the page configuration
    and one error message, which tells where to set the key, and then
    stops; no widget is created, no remote call is made and the session
    state is not touched. *)
Theorem missing_credential_halts env ss :
  secrets env !! "OPENAI_API_KEY" = None →
  run env ss =
    (Halt StopScript,
     mkWorld ss
       [set_page_config "Fort Siloso Voice Guide" "🎙️" "centered";
        st_error missing_key_text])
  ∧ index 0 "Settings → Secrets" missing_key_text = Some 57.
Proof.
  intros Hk. split; [|by vm_compute].
  unfold run, script, bind. by rewrite (startup_no_key _ _ Hk).
Qed.

Lemma missing_credential_halts_witness :
  run no_key_env after_one_turn =
    (Halt StopScript,
     mkWorld after_one_turn
       [set_page_config "Fort Siloso Voice Guide" "🎙️" "centered";
        st_error missing_key_text]).
Proof.
  refine (proj1 (missing_credential_halts no_key_env after_one_turn _));
    reflexivity.
Defined.

Lemma history_events_not_pipeline (l : list Message) :
  Forall (λ ev, is_pipeline_event ev = false) (map history_event l).
Proof. induction l; constructor; auto. Qed.

(** After the last block the log is known up to the history lines. *)
Ltac finish_history :=
  erewrite history_panel_spec by (cbn [session_state]; first [eassumption | apply lookup_insert_eq]);
  cbn [fst snd session_state log].

(** C9. No clip, no pipeline: when the recorder has returned nothing (or
    an empty clip), no execution of the script makes any pipeline call,
    whatever the buttons report, and, whenever the page is rendered (the
    secret is present and the client was created), the "Ask in voice"
    button is created disabled. *)
Theorem pipeline_requires_audio env ss :
  truthy (audio_recorder_value env) = false →
  Forall (λ ev, is_pipeline_event ev = false) (log (run env ss).2)
  ∧ (∀ k c, secrets env !! "OPENAI_API_KEY" = Some k →
            openai_client env k = inr c →
            In (st_button "Ask in voice" true true) (log (run env ss).2)).
Proof.
  intros Hno.
  destruct (secrets env !! "OPENAI_API_KEY") as [k|] eqn:Hk.
  2:{ unfold run, script, bind. rewrite (startup_no_key _ _ Hk).
      split; [by repeat constructor | done]. }
  destruct (openai_client env k) as [cerr|c] eqn:Hc.
  { unfold run, script, bind. rewrite (startup_no_client _ _ k cerr Hk Hc).
    split; [by repeat constructor|]. intros k0 c0 [= <-] Hc0. congruence. }
  assert (∃ l, session_state (init_session (mkWorld ss [])).2 !! "messages" = Some l
               ∧ ∀ lg, init_session (mkWorld ss lg)
                       = (Ret tt, mkWorld (session_state (init_session (mkWorld ss [])).2) lg))
    as (l & Hl & Hinit).
  { unfold init_session, set_messages. cbn [session_state log].
    destruct (ss !! "messages") as [l|] eqn:Hss; cbn [snd session_state].
    - by exists l.
    - exists [seed]. by rewrite lookup_insert_eq. }
  set (ss' := session_state (init_session (mkWorld ss [])).2) in *.
  assert (run env ss = page_body env
            (mkWorld ss' [set_page_config "Fort Siloso Voice Guide" "🎙️" "centered"]))
    as ->.
  { unfold run, script, bind at 1. rewrite (startup_key _ _ k c Hk Hc).
    unfold bind at 1. by rewrite Hinit. }
  clearbody ss'. clear Hinit Hc.
  destruct (audio_recorder_value env) as [[|b bs]|] eqn:Ha; [|done|]; clear Hno;
    destruct (button_value env "Reset conversation") eqn:Hr;
    destruct (button_value env "Ask in voice") eqn:Hs;
    exec; try finish_history;
    (split; [ rewrite ?Forall_app; repeat split;
              (apply history_events_not_pipeline || by repeat constructor)
            | intros _ _ _ _; apply list_elem_of_In; set_solver ]).
Qed.

Lemma pipeline_requires_audio_witness :
  Forall (λ ev, is_pipeline_event ev = false) (log (run no_clip_env seeded).2)
  ∧ In (st_button "Ask in voice" true true) (log (run no_clip_env seeded).2).
Proof.
  destruct (pipeline_requires_audio no_clip_env seeded) as [Hcalls Hbutton];
    [reflexivity|].
  split; [exact Hcalls
         | apply (Hbutton "sk-sample" (OpenAI "sk-sample")); reflexivity].
Defined.

(** An execution in which "Reset conversation" is pressed. *)
Lemma run_reset env ss k c l :
  secrets env !! "OPENAI_API_KEY" = Some k →
  openai_client env k = inr c →
  button_value env "Reset conversation" = true →
  ss !! "messages" = Some l →
  (run env ss).1 = Halt RerunScript
  ∧ session_state (run env ss).2 = <["messages" := take 1 l]> ss.
Proof.
  intros Hk Hc Hr Hl.
  destruct (audio_recorder_value env) as [[|b bs]|] eqn:Ha;
    destruct (button_value env "Ask in voice") eqn:Hs; by exec.
Qed.

(** C5. Reset: on a list that starts with the seed, an execution (its
    client created) in which
    "Reset conversation" is pressed leaves exactly [[seed]], however many
    messages followed the seed, and asks for a rerun; if the list was
    already [[seed]] the session state is unchanged; a second reset
    changes nothing more. *)
Theorem reset_yields_seed env ss k c rest :
  secrets env !! "OPENAI_API_KEY" = Some k →
  openai_client env k = inr c →
  button_value env "Reset conversation" = true →
  ss !! "messages" = Some (seed :: rest) →
  (run env ss).1 = Halt RerunScript
  ∧ session_state (run env ss).2 = <["messages" := [seed]]> ss
  ∧ (rest = [] → session_state (run env ss).2 = ss)
  ∧ (∀ env' k',
       secrets env' !! "OPENAI_API_KEY" = Some k' →
       button_value env' "Reset conversation" = true →
       session_state (run env' (session_state (run env ss).2)).2
       = session_state (run env ss).2).
Proof.
  intros Hk Hc Hr Hl.
  destruct (run_reset env ss k c _ Hk Hc Hr Hl) as [Hout Hss].
  change (take 1 (seed :: rest)) with [seed] in Hss. repeat split; [done..| |].
  - intros ->. rewrite Hss. by apply insert_id.
  - intros env' k' Hk' Hr'. rewrite Hss.
    destruct (openai_client env' k') as [err'|c'] eqn:Hc'.
    + by rewrite (run_stops _ _ (no_client_created _ _ _ Hk' Hc')).
    + destruct (run_reset env' (<["messages" := [seed]]> ss) k' c' [seed] Hk' Hc' Hr')
        as [_ ->]; [apply lookup_insert_eq|].
      apply insert_insert_eq.
Qed.

Lemma reset_yields_seed_witness :
  (run reset_env after_one_turn).1 = Halt RerunScript
  ∧ session_state (run reset_env after_one_turn).2
    = <["messages" := [seed]]> after_one_turn.
Proof.
  refine (let H := reset_yields_seed reset_env after_one_turn "sk-sample"
                     (OpenAI "sk-sample")
                     [mkMessage "user" sample_question;
                      mkMessage "assistant" sample_answer] _ _ _ _ in
          conj (proj1 H) (proj1 (proj2 H)));
    reflexivity.
Defined.

(** C10. Initialisation is idempotent: on a session that already has a
    message list, the initialisation block changes nothing, in any
    execution and whatever the execution receives; running the block
    twice is the same as running it once; and an execution in which
    neither reset nor a send with a clip happens leaves the whole session
    state as it found it. *)
Theorem init_session_idempotent env ss l :
  ss !! "messages" = Some l →
  (∀ lg, init_session (mkWorld ss lg) = (Ret tt, mkWorld ss lg))
  ∧ (∀ w, init_session (init_session w).2 = (Ret tt, (init_session w).2))
  ∧ session_state (bind (startup env) (λ _, init_session) (mkWorld ss [])).2 = ss
  ∧ (button_value env "Reset conversation" = false →
     button_value env "Ask in voice" && truthy (audio_recorder_value env) = false →
     session_state (run env ss).2 = ss).
Proof.
  intros Hl. repeat split.
  - intros lg. unfold init_session. cbn [session_state]. by rewrite Hl.
  - intros w. destruct (session_state w !! "messages") as [l0|] eqn:Hw.
    + assert (init_session w = (Ret tt, w)) as ->
        by (unfold init_session; by rewrite Hw).
      cbn [snd]. unfold init_session. by rewrite Hw.
    + assert (init_session w =
                (Ret tt, mkWorld (<["messages" := [seed]]> (session_state w)) (log w)))
        as -> by (unfold init_session, set_messages; by rewrite Hw).
      cbn [snd]. unfold init_session. cbn [session_state].
      by rewrite lookup_insert_eq.
  - destruct (secrets env !! "OPENAI_API_KEY") as [k|] eqn:Hk;
      [destruct (openai_client env k) as [err|c] eqn:Hc|]; by exec.
  - intros Hr Hidle.
    destruct (secrets env !! "OPENAI_API_KEY") as [k|] eqn:Hk; [|by exec].
    destruct (openai_client env k) as [err|c] eqn:Hc; [by exec|].
    destruct (audio_recorder_value env) as [[|b bs]|] eqn:Ha;
      destruct (button_value env "Ask in voice") eqn:Hs; try done;
      clear Hidle; exec; by finish_history.
Qed.

Lemma init_session_idempotent_witness :
  init_session (mkWorld after_one_turn []) = (Ret tt, mkWorld after_one_turn [])
  ∧ session_state (run no_clip_env after_one_turn).2 = after_one_turn.
Proof.
  destruct (init_session_idempotent no_clip_env after_one_turn
              [seed; mkMessage "user" sample_question;
               mkMessage "assistant" sample_answer])
    as (Hinit & _ & _ & Hidle); [reflexivity|].
  split; [apply Hinit | apply Hidle; reflexivity].
Defined.

(** ** Every path through one execution *)

Lemma filter_remote_history (l : list Message) :
  List.filter is_remote_call (map history_event l) = [].
Proof. induction l; [done|]. by cbn. Qed.

Lemma filter_button_history (l : list Message) :
  List.filter is_button (map history_event l) = [].
Proof. induction l; [done|]. by cbn. Qed.

Lemma existsb_header_history (l : list Message) :
  existsb is_history_header (map history_event l) = false.
Proof. induction l; [done|]. by cbn. Qed.

Lemma lookup_messages_insert (ss : gmap string (list Message)) l :
  <["messages" := l]> ss !! "messages" = Some l.
Proof. apply lookup_insert_eq. Qed.

(** Once the client is created, an execution is the page body run on the
    initialised session. *)
Lemma run_with_key env ss k c :
  secrets env !! "OPENAI_API_KEY" = Some k →
  openai_client env k = inr c →
  run env ss =
    page_body env
      (mkWorld (<["messages" := initial_history ss]> ss)
         [set_page_config "Fort Siloso Voice Guide" "🎙️" "centered"]).
Proof.
  intros Hk Hc. unfold run, script, bind at 1.
  rewrite (startup_key _ _ k c Hk Hc).
  unfold bind at 1, init_session, set_messages, initial_history.
  cbn [session_state log app].
  destruct (ss !! "messages") as [l|] eqn:Hl; [|done].
  by rewrite insert_id.
Qed.

Lemma run_without_key env ss :
  secrets env !! "OPENAI_API_KEY" = None →
  run env ss =
    (Halt StopScript,
     mkWorld ss
       [set_page_config "Fort Siloso Voice Guide" "🎙️" "centered";
        st_error missing_key_text]).
Proof.
  intros Hk. unfold run, script, bind. by rewrite (startup_no_key _ _ Hk).
Qed.

(** As [exec], with the lookup lemma at the type of the session. *)
Ltac exec_paths :=
  repeat (exec_step;
          try match goal with
              | H : ?lhs = _ |- context [?lhs] => rewrite H
              end;
          rewrite ?lookup_messages_insert).

(** Evaluate the projections of a log whose tail is the history panel. *)
Ltac norm_log :=
  unfold remote_calls, buttons, history_shown;
  cbn [List.filter existsb is_remote_call is_button is_history_header orb app];
  rewrite ?filter_remote_history, ?filter_button_history, ?existsb_header_history.

Ltac give_history l :=
  match goal with
  | |- ∃ l', ?s = <[_ := l']> ?s ∧ _ =>
      exists l; split; [symmetry; apply insert_id; assumption|]
  | |- ∃ l', <[_ := ?x]> ?s = _ ∧ _ =>
      exists x; split; [reflexivity|]
  end.

Ltac pick_way :=
  first [ left; split; [assumption | reflexivity]
        | right; split; [assumption|];
          first [ left; reflexivity
                | right; left; eexists; reflexivity
                | right; right; do 2 eexists; reflexivity ] ].

Ltac solve_leaf l :=
  exec_paths; try finish_history;
  rewrite ?insert_insert_eq, <- ?app_assoc; cbn [app];
  unfold page_summary; cbn [fst snd session_state log];
  split;
  [ give_history l; pick_way
  | norm_log;
    match goal with H : audio_recorder_value _ = _ |- _ => rewrite H end;
    repeat split; reflexivity ].

Lemma page_body_paths env ss0 l :
  ss0 !! "messages" = Some l →
  page_summary env ss0 l
    (page_body env
       (mkWorld ss0 [set_page_config "Fort Siloso Voice Guide" "🎙️" "centered"])).
Proof.
  intros Hl.
  destruct (audio_recorder_value env) as [[|b bs]|] eqn:Ha;
    destruct (button_value env "Reset conversation") eqn:Hr;
    destruct (button_value env "Ask in voice") eqn:Hs.
  all: try solve_leaf l.
  destruct (transcriptions_create env
              (mkTranscriptionRequest "gpt-4o-mini-transcribe" "question.wav" (b :: bs)))
    as [err|[q]] eqn:Hstt; [solve_leaf l|].
  destruct (completions_create env
              (mkCompletionRequest "gpt-4.1-mini" (l ++ [mkMessage "user" q]) (4 # 10)%Q))
    as [err|c] eqn:Hchat; [solve_leaf l|].
  destruct (choices c) as [|ch chs] eqn:Hchoices; [solve_leaf l|].
  destruct (speech_create env
              (mkSpeechRequest "gpt-4o-mini-tts" (selectbox_value env)
                 (content (message ch))))
    as [err|sp] eqn:Htts; solve_leaf l.
Qed.

Lemma initial_history_lookup ss :
  <["messages" := initial_history ss]> ss !! "messages" = Some (initial_history ss).
Proof. apply lookup_messages_insert. Qed.

(** Every execution either stops for want of a client or is one of the
    paths of the page body on the initialised session. *)
Lemma run_paths env ss :
  (¬ client_created env
   ∧ run env ss =
       (Halt StopScript,
        mkWorld ss
          [set_page_config "Fort Siloso Voice Guide" "🎙️" "centered";
           st_error missing_key_text]))
  ∨ (∃ k c, secrets env !! "OPENAI_API_KEY" = Some k
            ∧ openai_client env k = inr c
            ∧ page_summary env (<["messages" := initial_history ss]> ss)
                (initial_history ss) (run env ss)).
Proof.
  destruct (secrets env !! "OPENAI_API_KEY") as [k|] eqn:Hk.
  - destruct (openai_client env k) as [err|c] eqn:Hc.
    + left. pose proof (no_client_created _ _ _ Hk Hc) as Hno.
      split; [done|]. by apply run_stops.
    + right. exists k, c. do 2 (split; [done|]).
      rewrite (run_with_key _ _ k c Hk Hc).
      apply page_body_paths, initial_history_lookup.
  - left. assert (¬ client_created env) as Hno
      by (intros (k' & c' & Hk' & Hc'); congruence).
    split; [done|]. by apply run_stops.
Qed.

(** ** What every execution does *)

(** X1. The script writes no session key other than ["messages"]: after
    any execution every other key holds what it held before. *)
Theorem script_touches_only_messages env ss key :
  (key =? "messages")%string = false →
  session_state (run env ss).2 !! key = ss !! key.
Proof.
  intros Hkey. apply String.eqb_neq in Hkey.
  destruct (run_paths env ss) as [[_ ->]|(k & c & _ & _ & (l' & -> & _) & _)];
    [done|].
  by rewrite !lookup_insert_ne.
Qed.

Lemma script_touches_only_messages_witness :
  session_state (run turn_env with_notes).2 !! "notes" = with_notes !! "notes".
Proof. apply (script_touches_only_messages turn_env with_notes "notes"); reflexivity. Defined.

(** X2. One execution changes the stored list in one of four ways only:
    it is cut back to its first element (and then reset was pressed), left
    as it is, extended by one user message, or extended by a user message
    followed by an assistant message. *)
Theorem one_execution_changes_history_in_four_ways env ss l :
  ss !! "messages" = Some l →
  ∃ l', session_state (run env ss).2 = <["messages" := l']> ss
        ∧ ((button_value env "Reset conversation" = true ∧ l' = take 1 l)
           ∨ l' = l
           ∨ (∃ q, l' = l ++ [mkMessage "user" q])
           ∨ (∃ q a, l' = l ++ [mkMessage "user" q; mkMessage "assistant" a])).
Proof.
  intros Hl.
  destruct (run_paths env ss) as [[_ ->]|(k & c & _ & _ & (l' & Hss & Hway) & _)].
  - exists l. split; [symmetry; by apply insert_id | auto].
  - assert (initial_history ss = l) as Hbase by (unfold initial_history; by rewrite Hl).
    rewrite Hbase in *. exists l'. split.
    + by rewrite Hss, insert_insert_eq.
    + destruct Hway as [?|[_ ?]]; auto.
Qed.

Lemma one_execution_changes_history_in_four_ways_witness :
  ∃ l', session_state (run chat_down_env seeded).2 = <["messages" := l']> seeded
        ∧ ((button_value chat_down_env "Reset conversation" = true ∧ l' = take 1 [seed])
           ∨ l' = [seed]
           ∨ (∃ q, l' = [seed] ++ [mkMessage "user" q])
           ∨ (∃ q a, l' = [seed] ++ [mkMessage "user" q; mkMessage "assistant" a])).
Proof.
  apply (one_execution_changes_history_in_four_ways chat_down_env seeded [seed]);
    reflexivity.
Defined.

(** X3. In every execution the remote services are called in pipeline
    order and at most once each: nothing, transcription only,
    transcription then completion, or all three. *)
Theorem remote_calls_follow_stage_order env ss :
  stage_order (remote_calls (log (run env ss).2)) = true.
Proof.
  destruct (run_paths env ss) as [[_ ->]|(k & c & _ & _ & _ & Hcalls & _)]; done.
Qed.

(** X4. The conversation history panel is put on the page exactly in the
    executions that run to the end of the script; an execution that stops
    (missing credential, failure of any stage) or asks for a rerun (reset)
    leaves it out. *)
Theorem history_panel_iff_run_completes env ss :
  history_shown (log (run env ss).2) = is_ret (run env ss).1.
Proof.
  destruct (run_paths env ss) as [[_ ->]|(k & c & _ & _ & _ & _ & Hshown & _)];
    done.
Qed.

(** X5. No execution ends in an uncaught exception: a missing secret, an
    error of any of the three services and a completion without choices
    are all caught and end the execution with [st.stop]. *)
Theorem run_never_raises env ss e : (run env ss).1 ≠ Raise e.
Proof.
  destruct (run_paths env ss)
    as [[_ ->]|(k & c & _ & _ & _ & _ & _ & Hraise & _)]; [done|].
  intros Heq. by rewrite Heq in Hraise.
Qed.

(** X6. Whenever the client has been created (the secret is present and
    the constructor returned) the page has exactly two buttons, in this
    order: the primary "Ask in voice", disabled exactly when no non-empty
    clip was recorded, and "Reset conversation", never disabled. *)
Theorem page_has_two_buttons env ss k c :
  secrets env !! "OPENAI_API_KEY" = Some k →
  openai_client env k = inr c →
  buttons (log (run env ss).2) =
    [st_button "Ask in voice" true (negb (truthy (audio_recorder_value env)));
     st_button "Reset conversation" false false].
Proof.
  intros Hk Hc.
  destruct (run_paths env ss)
    as [[Hno _]|(k' & c' & _ & _ & _ & _ & _ & _ & Hb)]; [|done].
  destruct Hno. by exists k, c.
Qed.

Lemma page_has_two_buttons_witness :
  buttons (log (run turn_env seeded).2) =
    [st_button "Ask in voice" true false;
     st_button "Reset conversation" false false].
Proof.
  apply (page_has_two_buttons turn_env seeded "sk-sample" (OpenAI "sk-sample"));
    reflexivity.
Defined.

(** ** A session-wide invariant of the history *)

Lemma answers_follow_questions_take l : answers_follow_questions l → answers_follow_questions (take 1 l).
Proof.
  intros Hl i m Hm Hrole. apply lookup_take_Some in Hm as [Hm Hi].
  destruct (Hl i m Hm Hrole) as (j & u & -> & _). lia.
Qed.

Lemma answers_follow_questions_user l q : answers_follow_questions l → answers_follow_questions (l ++ [mkMessage "user" q]).
Proof.
  intros Hl i m Hm Hrole.
  destruct (decide (i < List.length l)) as [Hlt|Hge].
  - rewrite lookup_app_l in Hm by done.
    destruct (Hl i m Hm Hrole) as (j & u & -> & Hu & Hru).
    exists j, u. split; [done|]. split; [|done].
    rewrite lookup_app_l by lia. done.
  - rewrite lookup_app_r in Hm by lia.
    destruct (i - List.length l) as [|n] eqn:Hn; simpl in Hm; [|by destruct n].
    by simplify_eq.
Qed.

Lemma answers_follow_questions_answer l q a :
  answers_follow_questions l → answers_follow_questions ((l ++ [mkMessage "user" q]) ++ [mkMessage "assistant" a]).
Proof.
  intros Hl. pose proof (answers_follow_questions_user l q Hl) as Hu.
  set (lu := l ++ [mkMessage "user" q]) in *.
  assert (List.length lu = S (List.length l)) as Hlen
    by (subst lu; rewrite length_app; simpl; lia).
  intros i m Hm Hrole.
  destruct (decide (i < List.length lu)) as [Hlt|Hge].
  - rewrite lookup_app_l in Hm by done.
    destruct (Hu i m Hm Hrole) as (j & u & -> & Hju & Hru).
    exists j, u. split; [done|]. split; [|done].
    rewrite lookup_app_l by lia. done.
  - rewrite lookup_app_r in Hm by lia.
    destruct (i - List.length lu) as [|n] eqn:Hn; simpl in Hm; [|by destruct n].
    exists (List.length l), (mkMessage "user" q).
    split; [lia|]. split; [|done].
    rewrite lookup_app_l by lia. subst lu.
    rewrite lookup_app_r by lia. by rewrite Nat.sub_diag.
Qed.

Lemma answers_follow_questions_pair l q a :
  answers_follow_questions l → answers_follow_questions (l ++ [mkMessage "user" q; mkMessage "assistant" a]).
Proof.
  intros Hl.
  change (l ++ [mkMessage "user" q; mkMessage "assistant" a])
    with (l ++ [mkMessage "user" q] ++ [mkMessage "assistant" a]).
  rewrite app_assoc. by apply answers_follow_questions_answer.
Qed.

Lemma answers_follow_questions_seed : answers_follow_questions [seed].
Proof.
  intros i m Hm Hrole. destruct i as [|i]; simpl in Hm; [|done].
  by simplify_eq.
Qed.

Lemma run_keeps_answers_after_questions env ss :
  (∀ l, ss !! "messages" = Some l → answers_follow_questions l) →
  ∀ l, session_state (run env ss).2 !! "messages" = Some l →
       answers_follow_questions l.
Proof.
  intros Hss l.
  destruct (run_paths env ss)
    as [[_ ->]|(k & c & _ & _ & (l' & -> & Hway) & _)]; [by apply Hss|].
  rewrite lookup_messages_insert. intros [= <-].
  assert (answers_follow_questions (initial_history ss)) as Hbase.
  { unfold initial_history. destruct (ss !! "messages") as [l0|] eqn:Hl0.
    - by apply Hss.
    - apply answers_follow_questions_seed. }
  destruct Hway as [[_ ->]|[_ [->|[[q ->]|(q & a & ->)]]]].
  - by apply answers_follow_questions_take.
  - done.
  - by apply answers_follow_questions_user.
  - by apply answers_follow_questions_pair.
Qed.

Lemma run_session_keeps_answers_after_questions envs ss :
  (∀ l, ss !! "messages" = Some l → answers_follow_questions l) →
  ∀ l, run_session envs ss !! "messages" = Some l → answers_follow_questions l.
Proof.
  revert ss. induction envs as [|e envs IH]; intros ss Hss; simpl; [done|].
  apply IH. by apply run_keeps_answers_after_questions.
Qed.

(** X13. Throughout any session started empty, every assistant message
    in the list, at whatever position, comes directly after a user
    message; in particular the list never starts with an assistant
    message. *)
Theorem answers_follow_questions_invariant (envs : list Env) :
  match run_session envs ∅ !! "messages" with
  | Some l => answers_follow_questions l
  | None => True
  end.
Proof.
  destruct (run_session envs ∅ !! "messages") as [l|] eqn:Hl; [|done].
  apply (run_session_keeps_answers_after_questions envs ∅); [|done].
  intros l0. by rewrite lookup_empty.
Qed.

(** ** The trace of a turn, stage by stage *)

Section TurnTrace.

(** The same turn, with its client created. *)
Context (env : Env) (ss : gmap string (list Message)) (l : list Message).
Context (k : string) (b : Byte.byte) (bs : bytes).
Hypothesis Hkey : secrets env !! "OPENAI_API_KEY" = Some k.
Hypothesis Hmessages : ss !! "messages" = Some l.
Hypothesis Haudio : audio_recorder_value env = Some (b :: bs).
Hypothesis Hsend : button_value env "Ask in voice" = true.
Hypothesis Hreset : button_value env "Reset conversation" = false.
Context (client : Client).
Hypothesis Hclient : openai_client env k = inr client.

(** X7. When transcription fails, the transcription call is the only
    remote call of the execution, and the last thing put on the page is
    the error "Transcription failed: " followed by the service's message. *)
Theorem transcription_failure_stops_pipeline (err : Exn) :
  transcriptions_create env
    (mkTranscriptionRequest "gpt-4o-mini-transcribe" "question.wav" (b :: bs))
    = inl err →
  remote_calls (log (run env ss).2) =
    [call_transcription
       (mkTranscriptionRequest "gpt-4o-mini-transcribe" "question.wav" (b :: bs))]
  ∧ last (log (run env ss).2) = Some (st_error ("Transcription failed: " +:+ err)).
Proof. intros Hstt. exec_paths. by split. Qed.

Section Transcribed.

Context (q : string).
Hypothesis Hstt :
  transcriptions_create env
    (mkTranscriptionRequest "gpt-4o-mini-transcribe" "question.wav" (b :: bs))
  = inr (mkTranscript q).

(** X8. When the completion call fails, no speech call is made; the
    transcribed question has been written to the page, and the last thing
    put on the page is the error "LLM failed: " followed by the service's
    message. *)
Theorem generation_failure_stops_pipeline (err : Exn) :
  completions_create env
    (mkCompletionRequest "gpt-4.1-mini" (l ++ [mkMessage "user" q]) (4 # 10)%Q)
    = inl err →
  remote_calls (log (run env ss).2) =
    [call_transcription
       (mkTranscriptionRequest "gpt-4o-mini-transcribe" "question.wav" (b :: bs));
     call_completion
       (mkCompletionRequest "gpt-4.1-mini" (l ++ [mkMessage "user" q]) (4 # 10)%Q)]
  ∧ In (st_write q) (log (run env ss).2)
  ∧ last (log (run env ss).2) = Some (st_error ("LLM failed: " +:+ err)).
Proof.
  intros Hchat. exec_paths.
  split; [done|]. split; [|done]. apply list_elem_of_In. set_solver.
Qed.

(** X9. A completion that comes back without any choice is handled like
    a failed call: the execution stops, the list keeps the user message
    and gets no assistant message, and no speech call is made. *)
Theorem empty_choices_stop_the_turn (c : Completion) :
  completions_create env
    (mkCompletionRequest "gpt-4.1-mini" (l ++ [mkMessage "user" q]) (4 # 10)%Q)
    = inr c →
  choices c = [] →
  (run env ss).1 = Halt StopScript
  ∧ session_state (run env ss).2 = <["messages" := l ++ [mkMessage "user" q]]> ss
  ∧ remote_calls (log (run env ss).2) =
      [call_transcription
         (mkTranscriptionRequest "gpt-4o-mini-transcribe" "question.wav" (b :: bs));
       call_completion
         (mkCompletionRequest "gpt-4.1-mini" (l ++ [mkMessage "user" q]) (4 # 10)%Q)].
Proof. intros Hchat Hnone. exec_paths. by repeat split. Qed.

(** Shared by the results on sessions below. *)
Lemma run_turn_unanswered (err : Exn) :
  completions_create env
    (mkCompletionRequest "gpt-4.1-mini" (l ++ [mkMessage "user" q]) (4 # 10)%Q)
    = inl err →
  session_state (run env ss).2 = <["messages" := l ++ [mkMessage "user" q]]> ss.
Proof. intros Hchat. by exec_paths. Qed.

Section Answered.

Context (c : Completion) (ch : Choice) (chs : list Choice).
Hypothesis Hchat :
  completions_create env
    (mkCompletionRequest "gpt-4.1-mini" (l ++ [mkMessage "user" q]) (4 # 10)%Q)
  = inr c.
Hypothesis Hchoices : choices c = ch :: chs.

Lemma run_turn_answered :
  session_state (run env ss).2 =
    <["messages" := l ++ [mkMessage "user" q;
                          mkMessage "assistant" (content (message ch))]]> ss
  ∧ In (call_completion
          (mkCompletionRequest "gpt-4.1-mini" (l ++ [mkMessage "user" q]) (4 # 10)%Q))
       (log (run env ss).2).
Proof.
  destruct (speech_create env
              (mkSpeechRequest "gpt-4o-mini-tts" (selectbox_value env)
                 (content (message ch)))) as [err|sp] eqn:Htts;
    exec_paths; try finish_history;
    rewrite insert_insert_eq, <- app_assoc.
  all: split; [done | apply list_elem_of_In; set_solver].
Qed.

(** X10. In a successful turn the three services are called once each,
    in order, with the recorded clip, with the whole list plus the
    question, and with the selected voice and the answer text; the audio
    returned by the speech service is played as audio/mp3; and the history
    panel that ends the page lists every stored message but the first,
    the new question and answer included. *)
Theorem successful_turn_trace (sp : Speech) :
  speech_create env
    (mkSpeechRequest "gpt-4o-mini-tts" (selectbox_value env) (content (message ch)))
    = inr sp →
  remote_calls (log (run env ss).2) =
    [call_transcription
       (mkTranscriptionRequest "gpt-4o-mini-transcribe" "question.wav" (b :: bs));
     call_completion
       (mkCompletionRequest "gpt-4.1-mini" (l ++ [mkMessage "user" q]) (4 # 10)%Q);
     call_speech
       (mkSpeechRequest "gpt-4o-mini-tts" (selectbox_value env) (content (message ch)))]
  ∧ In (st_audio (read sp) "audio/mp3") (log (run env ss).2)
  ∧ ∃ above,
      log (run env ss).2 =
        above ++ [st_subheader "Conversation history"]
          ++ map history_event
               (drop 1 (l ++ [mkMessage "user" q;
                              mkMessage "assistant" (content (message ch))])).
Proof.
  intros Htts. exec_paths. finish_history. rewrite <- (app_assoc l).
  split; [by norm_log|]. split; [apply list_elem_of_In; set_solver|].
  eexists. symmetry.
  exact (app_assoc _ [st_subheader "Conversation history"] _).
Qed.

End Answered.
End Transcribed.
End TurnTrace.

Lemma transcription_failure_stops_pipeline_witness :
  remote_calls (log (run stt_down_env seeded).2) =
    [call_transcription
       (mkTranscriptionRequest "gpt-4o-mini-transcribe" "question.wav" sample_audio)]
  ∧ last (log (run stt_down_env seeded).2)
    = Some (st_error "Transcription failed: connection error").
Proof.
  refine (transcription_failure_stops_pipeline stt_down_env seeded [seed]
            "sk-sample" Byte.x52 [Byte.x49; Byte.x46; Byte.x46]
            _ _ _ _ _ (OpenAI "sk-sample") _ "connection error" _);
    reflexivity.
Defined.

Lemma generation_failure_stops_pipeline_witness :
  In (st_write sample_question) (log (run chat_down_env seeded).2)
  ∧ last (log (run chat_down_env seeded).2)
    = Some (st_error "LLM failed: rate limit exceeded").
Proof.
  refine (proj2 (generation_failure_stops_pipeline chat_down_env seeded [seed]
            "sk-sample" Byte.x52 [Byte.x49; Byte.x46; Byte.x46]
            _ _ _ _ _ (OpenAI "sk-sample") _
            sample_question _ "rate limit exceeded" _));
    reflexivity.
Defined.

Lemma empty_choices_stop_the_turn_witness :
  (run no_choice_env seeded).1 = Halt StopScript
  ∧ session_state (run no_choice_env seeded).2
    = <["messages" := [seed; mkMessage "user" sample_question]]> seeded.
Proof.
  refine (let H := empty_choices_stop_the_turn no_choice_env seeded [seed]
                     "sk-sample" Byte.x52 [Byte.x49; Byte.x46; Byte.x46]
                     _ _ _ _ _ (OpenAI "sk-sample") _
                     sample_question _ (mkCompletion []) _ _ in
          conj (proj1 H) (proj1 (proj2 H)));
    reflexivity.
Defined.

Lemma successful_turn_trace_witness :
  remote_calls (log (run turn_env seeded).2) =
    [call_transcription
       (mkTranscriptionRequest "gpt-4o-mini-transcribe" "question.wav" sample_audio);
     call_completion
       (mkCompletionRequest "gpt-4.1-mini"
          [seed; mkMessage "user" sample_question] (4 # 10)%Q);
     call_speech (mkSpeechRequest "gpt-4o-mini-tts" "alloy" sample_answer)].
Proof.
  refine (proj1 (successful_turn_trace turn_env seeded [seed]
            "sk-sample" Byte.x52 [Byte.x49; Byte.x46; Byte.x46]
            _ _ _ _ _ (OpenAI "sk-sample") _
            sample_question _ sample_completion
            (mkChoice (mkMessage "assistant" sample_answer)) [] _ _
            sample_speech _));
    reflexivity.
Defined.

(** X11. Reset wins over send: when "Reset conversation" is reported
    pressed, the execution makes no remote call and shows no history
    panel, whatever the send button and the recorder report. *)
Theorem reset_ignores_send env ss k :
  secrets env !! "OPENAI_API_KEY" = Some k →
  button_value env "Reset conversation" = true →
  remote_calls (log (run env ss).2) = []
  ∧ history_shown (log (run env ss).2) = false.
Proof.
  intros Hk Hr. destruct (openai_client env k) as [cerr|c] eqn:Hc.
  { rewrite (run_stops _ _ (no_client_created _ _ _ Hk Hc)). by split. }
  rewrite (run_with_key _ _ k c Hk Hc).
  pose proof (initial_history_lookup ss) as Hl.
  destruct (audio_recorder_value env) as [[|b bs]|] eqn:Ha;
    destruct (button_value env "Ask in voice") eqn:Hs;
    exec_paths; by split.
Qed.

Lemma reset_ignores_send_witness :
  remote_calls (log (run both_buttons_env after_one_turn).2) = []
  ∧ history_shown (log (run both_buttons_env after_one_turn).2) = false.
Proof.
  apply (reset_ignores_send both_buttons_env after_one_turn "sk-sample");
    reflexivity.
Defined.

(** X12. Once the client has been created (the secret is present and the
    constructor returned), an execution in which nothing is reset and
    nothing is sent runs to its end, and its page ends with the history
    header followed by one line for each stored message but the first,
    in order. *)
Theorem idle_run_displays_history env ss k c l :
  secrets env !! "OPENAI_API_KEY" = Some k →
  openai_client env k = inr c →
  ss !! "messages" = Some l →
  button_value env "Reset conversation" = false →
  button_value env "Ask in voice" && truthy (audio_recorder_value env) = false →
  (run env ss).1 = Ret tt
  ∧ ∃ above,
      log (run env ss).2 =
        above ++ [st_subheader "Conversation history"]
          ++ map history_event (drop 1 l).
Proof.
  intros Hk Hc Hl Hr Hidle.
  destruct (audio_recorder_value env) as [[|b bs]|] eqn:Ha;
    destruct (button_value env "Ask in voice") eqn:Hs; try done;
    clear Hidle; exec_paths; finish_history;
    (split; [done|]); eexists; symmetry;
    exact (app_assoc _ [st_subheader "Conversation history"] _).
Qed.

Lemma idle_run_displays_history_witness :
  (run idle_env after_one_turn).1 = Ret tt
  ∧ ∃ above,
      log (run idle_env after_one_turn).2 =
        above ++ [st_subheader "Conversation history"]
          ++ map history_event
               [mkMessage "user" sample_question;
                mkMessage "assistant" sample_answer].
Proof.
  apply (idle_run_displays_history idle_env after_one_turn "sk-sample"
           (OpenAI "sk-sample")
           [seed; mkMessage "user" sample_question;
            mkMessage "assistant" sample_answer]);
    reflexivity.
Defined.

(** ** Executions in sequence *)

(** X14. A question whose answer failed stays in the list and is sent
    again: after a turn whose completion call fails and a following turn
    that is answered, the list holds both user messages in a row before
    the assistant message, and the second completion call was made with
    both of them. *)
Theorem dangling_question_is_resent
    (env1 env2 : Env) (ss : gmap string (list Message)) (l : list Message)
    (k1 k2 : string) (cl1 cl2 : Client) (b1 b2 : Byte.byte) (bs1 bs2 : bytes)
    (q1 q2 : string) (err : Exn) (c : Completion) (ch : Choice) (chs : list Choice) :
  ss !! "messages" = Some l →
  secrets env1 !! "OPENAI_API_KEY" = Some k1 →
  openai_client env1 k1 = inr cl1 →
  audio_recorder_value env1 = Some (b1 :: bs1) →
  button_value env1 "Ask in voice" = true →
  button_value env1 "Reset conversation" = false →
  transcriptions_create env1
    (mkTranscriptionRequest "gpt-4o-mini-transcribe" "question.wav" (b1 :: bs1))
    = inr (mkTranscript q1) →
  completions_create env1
    (mkCompletionRequest "gpt-4.1-mini" (l ++ [mkMessage "user" q1]) (4 # 10)%Q)
    = inl err →
  secrets env2 !! "OPENAI_API_KEY" = Some k2 →
  openai_client env2 k2 = inr cl2 →
  audio_recorder_value env2 = Some (b2 :: bs2) →
  button_value env2 "Ask in voice" = true →
  button_value env2 "Reset conversation" = false →
  transcriptions_create env2
    (mkTranscriptionRequest "gpt-4o-mini-transcribe" "question.wav" (b2 :: bs2))
    = inr (mkTranscript q2) →
  completions_create env2
    (mkCompletionRequest "gpt-4.1-mini"
       (l ++ [mkMessage "user" q1; mkMessage "user" q2]) (4 # 10)%Q)
    = inr c →
  choices c = ch :: chs →
  run_session [env1; env2] ss =
    <["messages" := l ++ [mkMessage "user" q1; mkMessage "user" q2;
                          mkMessage "assistant" (content (message ch))]]> ss
  ∧ In (call_completion
          (mkCompletionRequest "gpt-4.1-mini"
             (l ++ [mkMessage "user" q1; mkMessage "user" q2]) (4 # 10)%Q))
       (log (run env2 (session_state (run env1 ss).2)).2).
Proof.
  intros Hl Hk1 Hc1 Ha1 Hs1 Hr1 Hstt1 Hchat1 Hk2 Hc2 Ha2 Hs2 Hr2 Hstt2 Hchat2 Hch.
  cbn [run_session].
  rewrite (run_turn_unanswered env1 ss l k1 b1 bs1 Hk1 Hl Ha1 Hs1 Hr1 cl1 Hc1
             q1 Hstt1 err Hchat1).
  destruct (run_turn_answered env2 (<["messages" := l ++ [mkMessage "user" q1]]> ss)
              (l ++ [mkMessage "user" q1]) k2 b2 bs2 Hk2
              (lookup_messages_insert _ _) Ha2 Hs2 Hr2 cl2 Hc2 q2 Hstt2 c ch chs)
    as [Hss Hcall]; [by rewrite <- app_assoc | done |].
  split.
  - rewrite Hss. by rewrite insert_insert_eq, <- app_assoc.
  - by rewrite <- app_assoc in Hcall.
Qed.

Lemma dangling_question_is_resent_witness :
  run_session [chat_down_env; turn_env] seeded =
    <["messages" := [seed; mkMessage "user" sample_question;
                     mkMessage "user" sample_question;
                     mkMessage "assistant" sample_answer]]> seeded.
Proof.
  refine (proj1 (dangling_question_is_resent chat_down_env turn_env seeded [seed]
            "sk-sample" "sk-sample" (OpenAI "sk-sample") (OpenAI "sk-sample")
            Byte.x52 Byte.x52
            [Byte.x49; Byte.x46; Byte.x46] [Byte.x49; Byte.x46; Byte.x46]
            sample_question sample_question "rate limit exceeded"
            sample_completion (mkChoice (mkMessage "assistant" sample_answer)) []
            _ _ _ _ _ _ _ _ _ _ _ _ _ _ _ _));
    reflexivity.
Defined.

(** X15. Nothing is ever dropped from the list while turns succeed: with
    services that keep returning the same transcript and the same
    completion, [n] successive turns extend the list by [n] question and
    answer pairs and change nothing else. *)
Theorem repeated_turns_grow_history
    (env : Env) (k : string) (cl : Client) (b : Byte.byte) (bs : bytes)
    (q : string) (c : Completion) (ch : Choice) (chs : list Choice) :
  secrets env !! "OPENAI_API_KEY" = Some k →
  openai_client env k = inr cl →
  audio_recorder_value env = Some (b :: bs) →
  button_value env "Ask in voice" = true →
  button_value env "Reset conversation" = false →
  transcriptions_create env
    (mkTranscriptionRequest "gpt-4o-mini-transcribe" "question.wav" (b :: bs))
    = inr (mkTranscript q) →
  (∀ req, completions_create env req = inr c) →
  choices c = ch :: chs →
  ∀ (n : nat) (ss : gmap string (list Message)) (l : list Message),
    ss !! "messages" = Some l →
    run_session (replicate n env) ss =
      <["messages" :=
          l ++ List.concat (replicate n [mkMessage "user" q;
                                    mkMessage "assistant" (content (message ch))])]> ss.
Proof.
  intros Hk Hc Ha Hs Hr Hstt Hchat Hch n.
  induction n as [|n IH]; intros ss l Hl; cbn [replicate run_session List.concat].
  - rewrite app_nil_r. symmetry. by apply insert_id.
  - destruct (run_turn_answered env ss l k b bs Hk Hl Ha Hs Hr cl Hc q Hstt c ch chs
                (Hchat _) Hch) as [-> _].
    rewrite (IH _ _ (lookup_messages_insert _ _)).
    by rewrite insert_insert_eq, <- app_assoc.
Qed.

Lemma repeated_turns_grow_history_witness :
  run_session [turn_env; turn_env] seeded =
    <["messages" := [seed; mkMessage "user" sample_question;
                     mkMessage "assistant" sample_answer;
                     mkMessage "user" sample_question;
                     mkMessage "assistant" sample_answer]]> seeded.
Proof.
  refine (repeated_turns_grow_history turn_env "sk-sample" (OpenAI "sk-sample")
            Byte.x52
            [Byte.x49; Byte.x46; Byte.x46] sample_question sample_completion
            (mkChoice (mkMessage "assistant" sample_answer)) []
            _ _ _ _ _ _ _ _ 2 seeded [seed] _);
    reflexivity.
Defined.

(** X16. After a reset the next turn starts from the seed alone: the
    completion call carries the seed and the new question only, and the
    list becomes seed, question, answer. *)
Theorem reset_then_turn_forgets_history
    (env1 env2 : Env) (ss : gmap string (list Message)) (rest : list Message)
    (k1 k2 : string) (cl1 cl2 : Client) (b : Byte.byte) (bs : bytes)
    (q : string) (c : Completion) (ch : Choice) (chs : list Choice) :
  ss !! "messages" = Some (seed :: rest) →
  secrets env1 !! "OPENAI_API_KEY" = Some k1 →
  openai_client env1 k1 = inr cl1 →
  button_value env1 "Reset conversation" = true →
  secrets env2 !! "OPENAI_API_KEY" = Some k2 →
  openai_client env2 k2 = inr cl2 →
  audio_recorder_value env2 = Some (b :: bs) →
  button_value env2 "Ask in voice" = true →
  button_value env2 "Reset conversation" = false →
  transcriptions_create env2
    (mkTranscriptionRequest "gpt-4o-mini-transcribe" "question.wav" (b :: bs))
    = inr (mkTranscript q) →
  completions_create env2
    (mkCompletionRequest "gpt-4.1-mini" [seed; mkMessage "user" q] (4 # 10)%Q)
    = inr c →
  choices c = ch :: chs →
  run_session [env1; env2] ss =
    <["messages" := [seed; mkMessage "user" q;
                     mkMessage "assistant" (content (message ch))]]> ss
  ∧ In (call_completion
          (mkCompletionRequest "gpt-4.1-mini" [seed; mkMessage "user" q] (4 # 10)%Q))
       (log (run env2 (session_state (run env1 ss).2)).2).
Proof.
  intros Hl Hk1 Hc1 Hr1 Hk2 Hc2 Ha Hs Hr2 Hstt Hchat Hch.
  cbn [run_session].
  destruct (run_reset env1 ss k1 cl1 _ Hk1 Hc1 Hr1 Hl) as [_ ->].
  change (take 1 (seed :: rest)) with [seed].
  destruct (run_turn_answered env2 (<["messages" := [seed]]> ss) [seed] k2 b bs Hk2
              (lookup_messages_insert _ _) Ha Hs Hr2 cl2 Hc2 q Hstt c ch chs Hchat Hch)
    as [Hss Hcall].
  split; [|exact Hcall]. rewrite Hss. by rewrite insert_insert_eq.
Qed.

Lemma reset_then_turn_forgets_history_witness :
  run_session [reset_env; turn_env] after_one_turn =
    <["messages" := [seed; mkMessage "user" sample_question;
                     mkMessage "assistant" sample_answer]]> after_one_turn.
Proof.
  refine (proj1 (reset_then_turn_forgets_history reset_env turn_env after_one_turn
            [mkMessage "user" sample_question; mkMessage "assistant" sample_answer]
            "sk-sample" "sk-sample" (OpenAI "sk-sample") (OpenAI "sk-sample")
            Byte.x52 [Byte.x49; Byte.x46; Byte.x46]
            sample_question sample_completion
            (mkChoice (mkMessage "assistant" sample_answer)) []
            _ _ _ _ _ _ _ _ _ _ _ _));
    reflexivity.
Defined.

(** X17. A client constructor that raises is handled exactly like a
    missing secret: the execution is the page configuration and the
    "OPENAI_API_KEY is not set" message, then it stops; the session state
    is not touched, so a fresh session is left without its message list. *)
Theorem rejected_key_reported_as_missing env ss k err :
  secrets env !! "OPENAI_API_KEY" = Some k →
  openai_client env k = inl err →
  run env ss =
    (Halt StopScript,
     mkWorld ss
       [set_page_config "Fort Siloso Voice Guide" "🎙️" "centered";
        st_error missing_key_text]).
Proof. intros Hk Hc. apply run_stops. by apply (no_client_created _ k err). Qed.

Lemma rejected_key_reported_as_missing_witness :
  run rejected_key_env ∅ =
    (Halt StopScript,
     mkWorld ∅
       [set_page_config "Fort Siloso Voice Guide" "🎙️" "centered";
        st_error missing_key_text]).
Proof.
  apply (rejected_key_reported_as_missing rejected_key_env ∅ "" "invalid api key");
    reflexivity.
Defined.
